(** * gd_ik: the MoveIt kinematics plugin [GDIKPlugin]

    A shallow embedding of [src/gd_ik_plugin.cpp].  The plugin object is a
    record; a member function that assigns members returns the new object
    next to its result (state passing).  A call that dereferences a null
    pointer has no result ([None]).

    [double] is IEEE binary64, as in the source: Rocq's primitive floats. *)

From Stdlib Require Import PrimFloat SpecFloat FloatOps FloatAxioms.
From Stdlib Require Import ZArith Ascii String.
From stdpp Require Import base option list strings gmap.

Definition double : Set := float.

(** ** Collaborators from MoveIt, geometry_msgs and rclcpp

    Only what the plugin reads or writes is kept. *)

(** [moveit::core::JointModel::JointType]. *)
Inductive JointType : Set :=
  | UNKNOWN | REVOLUTE | PRISMATIC | PLANAR | FLOATING | FIXED.

#[global] Instance JointType_eq_dec : EqDecision JointType.
Proof. solve_decision. Defined.

Record JointModel : Set := {
  getName : string;
  getType : JointType;
  getFirstVariableIndex : nat
}.

Record JointModelGroup : Set := {
  getJointModels : list JointModel;
  getEndEffectorTips : list string
}.

Record RobotModel : Set := {
  joint_model_groups : gmap string JointModelGroup;
  getLinkModelNames : list string;
  getVariableDefaultPositions : list double
}.

(** [robot_model->getJointModelGroup(name)]: a pointer, null when the model
    has no group of that name. *)
Definition getJointModelGroup (m : RobotModel) (name : string)
  : option JointModelGroup :=
  joint_model_groups m !! name.

Record RobotState : Set := {
  getRobotModel : RobotModel;
  getVariablePositions : list double
}.

(** [RobotState(robot_model)]: the positions are not initialised by the
    constructor; they are zeros here and overwritten before any read. *)
Definition RobotState_new (m : RobotModel) : RobotState :=
  {| getRobotModel := m;
     getVariablePositions :=
       replicate (length (getVariableDefaultPositions m)) 0%float |}.

Definition setToDefaultValues (st : RobotState) : RobotState :=
  {| getRobotModel := getRobotModel st;
     getVariablePositions :=
       getVariableDefaultPositions (getRobotModel st) |}.

(** [geometry_msgs::msg::Pose]: a position and an orientation quaternion. *)
Record Pose : Set := {
  position_x : double; position_y : double; position_z : double;
  orientation_x : double; orientation_y : double;
  orientation_z : double; orientation_w : double
}.

Record MoveItErrorCodes : Set := { val : Z }.

Record KinematicsQueryOptions : Set := {
  lock_redundant_joints : bool;
  return_approximate_solution : bool
}.

(** [std::function] objects; the empty function object is [None]. *)
Definition IKCallbackFn : Set :=
  option (Pose -> list double -> MoveItErrorCodes -> MoveItErrorCodes).

Definition IKCostFn : Set :=
  option (Pose -> RobotState -> option JointModelGroup -> list double -> double).

(** The members of the generated [Params] struct that the plugin reads. *)
Record Params : Set := {
  position_threshold : double;
  rotation_threshold : double;
  twist_threshold : double;
  cost_threshold : double;
  center_joints_weight : double;
  avoid_joint_limits_weight : double;
  minimal_displacement_weight : double
}.

(** A node, seen as the parameters it holds under each prefix. *)
Record Node : Set := { node_parameters : string -> Params }.

Record ParamListener : Set := {
  listener_node : Node;
  listener_prefix : string
}.

Definition get_params (l : ParamListener) : Params :=
  node_parameters (listener_node l) (listener_prefix l).

(** ** The members inherited from [kinematics::KinematicsBase]

    The members that the comment of lines 107-114 lists as set by
    [storeValues]; of [redundant_joint_discretization_], a vector, the
    value it is initialised with is kept, as [search_discretization_].
    Other members of the base class are not read or assigned by the plugin
    and are left out. *)

Record KinematicsBase : Set := {
  robot_model_ : option RobotModel;
  robot_description_ : string;
  group_name_ : string;
  base_frame_ : string;
  tip_frames_ : list string;
  search_discretization_ : double
}.

(** [KinematicsBase::removeSlash]: the string without its leading slashes. *)
Fixpoint removeSlash (str : string) : string :=
  match str with
  | String "/"%char rest => removeSlash rest
  | _ => str
  end.

(** [KinematicsBase::storeValues], as the comment in [initialize]
    describes it. *)
Definition storeValues (robot_model : RobotModel) (group_name : string)
    (base_frame : string) (tip_frames : list string)
    (search_discretization : double) : KinematicsBase :=
  {| robot_model_ := Some robot_model;
     robot_description_ := "";
     group_name_ := group_name;
     base_frame_ := removeSlash base_frame;
     tip_frames_ := map removeSlash tip_frames;
     search_discretization_ := search_discretization |}.

(** ** The interface of the [gd_ik] headers

    [gd_ik/algorithm.hpp], [frame.hpp], [goal.hpp] and [robot.hpp] are
    included by the plugin; the plugin is embedded over any implementation
    of the functions it calls from them. *)

Class GdIk : Type := {
  Frame : Type;
  Robot : Type;
  FrameTestFn : Type;
  Robot_default : Robot;
  Robot_from : RobotModel -> Robot;
  get_link_indexes : RobotModel -> list string -> list nat;
  get_active_variable_indexes :
    RobotModel -> JointModelGroup -> list nat -> list nat;
  get_minimal_displacement_factors : list nat -> Robot -> list double;
  get_variables : RobotState -> list double;
  select : list double -> list nat -> list double;
  transform_poses_to_frames : RobotState -> list Pose -> string -> list Frame;
  make_frame_tests : list Frame -> double -> double -> double -> list FrameTestFn
}.

Section Plugin.
Context `{core : GdIk}.

(** The cost functions of [goal.hpp] are closures: each is kept as the call
    that makes it, with the values it captures. *)
Inductive CostFn : Type :=
  | make_center_joints_cost_fn (robot : Robot)
      (active_variable_indexes : list nat)
      (minimal_displacement_factors : list double)
  | make_avoid_joint_limits_cost_fn (robot : Robot)
      (active_variable_indexes : list nat)
      (minimal_displacement_factors : list double)
  | make_minimal_displacement_cost_fn (active_initial_guess : list double)
      (minimal_displacement_factors : list double)
  | make_ik_cost_fn (pose : Pose) (cost_function : IKCostFn)
      (robot_model : option RobotModel) (jmg : option JointModelGroup)
      (initial_guess : list double).

Record Goal : Type := { eval : CostFn; weight : double }.

(** The closure returned by [make_is_solution_test_fn]. *)
Record SolutionTestFn : Type := make_is_solution_test_fn {
  test_frame_tests : list FrameTestFn;
  test_goals : list Goal;
  test_cost_threshold : double
}.

Record GDIKPlugin : Type := {
  base : KinematicsBase;
  node_ : option Node;
  parameter_listener_ : option ParamListener;
  params_ : Params;
  jmg_ : option JointModelGroup;
  joint_names_ : list string;
  link_names_ : list string;
  robot_ : Robot;
  tip_link_indexes_ : list nat;
  active_variable_indexes_ : list nat;
  minimal_displacement_factors_ : list double
}.

Definition getBaseFrame (self : GDIKPlugin) : string := base_frame_ (base self).

(** ** [searchPositionIK], the overload with every parameter *)

(** The local variables of [searchPositionIK] at its [return]. *)
Record SearchLocals : Type := {
  goal_frames : list Frame;
  frame_tests : list FrameTestFn;
  initial_guess : list double;
  active_initial_guess : list double;
  goals : list Goal;
  solution_test : SolutionTestFn
}.

(** Lines 45-50: the state the search works from. *)
Definition context_state_or_default (self : GDIKPlugin)
    (context_state : option RobotState) : option RobotState :=
  match context_state with
  | Some st => Some st
  | None =>
      match robot_model_ (base self) with
      | Some m => Some (setToDefaultValues (RobotState_new m))
      | None => None
      end
  end.

(** Lines 62-87: the goals, pushed back one after the other. *)
Definition push_back_if {A : Type} (c : bool) (v : list A) (x : A) : list A :=
  if c then v ++ [x] else v.

Definition create_goals (self : GDIKPlugin) (ik_poses : list Pose)
    (cost_function : IKCostFn) (initial_guess active_initial_guess : list double)
  : list Goal :=
  let goals := [] in
  let goals :=
    push_back_if (0 <? center_joints_weight (params_ self))%float goals
      {| eval := make_center_joints_cost_fn (robot_ self)
                   (active_variable_indexes_ self)
                   (minimal_displacement_factors_ self);
         weight := center_joints_weight (params_ self) |} in
  let goals :=
    push_back_if (0 <? avoid_joint_limits_weight (params_ self))%float goals
      {| eval := make_avoid_joint_limits_cost_fn (robot_ self)
                   (active_variable_indexes_ self)
                   (minimal_displacement_factors_ self);
         weight := avoid_joint_limits_weight (params_ self) |} in
  let goals :=
    push_back_if (0 <? minimal_displacement_weight (params_ self))%float goals
      {| eval := make_minimal_displacement_cost_fn active_initial_guess
                   (minimal_displacement_factors_ self);
         weight := minimal_displacement_weight (params_ self) |} in
  match cost_function with
  | Some _ =>
      fold_left
        (fun goals pose =>
           goals ++ [ {| eval := make_ik_cost_fn pose cost_function
                                   (robot_model_ (base self)) (jmg_ self)
                                   initial_guess;
                         weight := 1%float |} ])
        ik_poses goals
  | None => goals
  end.

Definition search_locals (self : GDIKPlugin) (ik_poses : list Pose)
    (ik_seed_state : list double) (timeout : double)
    (consistency_limits : list double) (solution : list double)
    (solution_callback : IKCallbackFn) (cost_function : IKCostFn)
    (error_code : MoveItErrorCodes) (options : KinematicsQueryOptions)
    (context_state : option RobotState) : option SearchLocals :=
  match context_state_or_default self context_state with
  | None => None
  | Some context_state =>
      let goal_frames :=
        transform_poses_to_frames context_state ik_poses (getBaseFrame self) in
      let frame_tests :=
        make_frame_tests goal_frames (position_threshold (params_ self))
          (rotation_threshold (params_ self)) (twist_threshold (params_ self)) in
      let initial_guess := get_variables context_state in
      let active_initial_guess :=
        select initial_guess (active_variable_indexes_ self) in
      let goals :=
        create_goals self ik_poses cost_function initial_guess
          active_initial_guess in
      let solution_test :=
        make_is_solution_test_fn frame_tests goals
          (cost_threshold (params_ self)) in
      Some {| goal_frames := goal_frames;
              frame_tests := frame_tests;
              initial_guess := initial_guess;
              active_initial_guess := active_initial_guess;
              goals := goals;
              solution_test := solution_test |}
  end.

(** The result of a search call: the returned [bool], and the [solution]
    and [error_code] arguments as the call leaves them. *)
Record SearchResult : Set := {
  returned : bool;
  solution_out : list double;
  error_code_out : MoveItErrorCodes
}.

Definition searchPositionIK (self : GDIKPlugin) (ik_poses : list Pose)
    (ik_seed_state : list double) (timeout : double)
    (consistency_limits : list double) (solution : list double)
    (solution_callback : IKCallbackFn) (cost_function : IKCostFn)
    (error_code : MoveItErrorCodes) (options : KinematicsQueryOptions)
    (context_state : option RobotState) : option SearchResult :=
  match search_locals self ik_poses ik_seed_state timeout consistency_limits
          solution solution_callback cost_function error_code options
          context_state with
  | None => None
  | Some _ =>
      Some {| returned := false;
              solution_out := solution;
              error_code_out := error_code |}
  end.

(** ** The overloads that delegate (lines 184-246)

    C++ tells the overloads apart by their parameter lists; here each has a
    name of its own.  [options] has a default argument in the source and is
    passed explicitly here; a [context_state] left out is null. *)

(** Lines 234-246: several poses, no cost function. *)
Definition searchPositionIK_poses (self : GDIKPlugin) (ik_poses : list Pose)
    (ik_seed_state : list double) (timeout : double)
    (consistency_limits : list double) (solution : list double)
    (solution_callback : IKCallbackFn) (error_code : MoveItErrorCodes)
    (options : KinematicsQueryOptions) (context_state : option RobotState)
  : option SearchResult :=
  searchPositionIK self ik_poses ik_seed_state timeout consistency_limits
    solution solution_callback None error_code options context_state.

(** Lines 184-194. *)
Definition searchPositionIK_pose (self : GDIKPlugin) (ik_pose : Pose)
    (ik_seed_state : list double) (timeout : double) (solution : list double)
    (error_code : MoveItErrorCodes) (options : KinematicsQueryOptions)
  : option SearchResult :=
  searchPositionIK_poses self [ik_pose] ik_seed_state timeout [] solution None
    error_code options None.

(** Lines 196-207. *)
Definition searchPositionIK_pose_limits (self : GDIKPlugin) (ik_pose : Pose)
    (ik_seed_state : list double) (timeout : double)
    (consistency_limits : list double) (solution : list double)
    (error_code : MoveItErrorCodes) (options : KinematicsQueryOptions)
  : option SearchResult :=
  searchPositionIK_poses self [ik_pose] ik_seed_state timeout
    consistency_limits solution None error_code options None.

(** Lines 209-219. *)
Definition searchPositionIK_pose_callback (self : GDIKPlugin) (ik_pose : Pose)
    (ik_seed_state : list double) (timeout : double) (solution : list double)
    (solution_callback : IKCallbackFn) (error_code : MoveItErrorCodes)
    (options : KinematicsQueryOptions) : option SearchResult :=
  searchPositionIK_poses self [ik_pose] ik_seed_state timeout [] solution
    solution_callback error_code options None.

(** Lines 221-232. *)
Definition searchPositionIK_pose_limits_callback (self : GDIKPlugin)
    (ik_pose : Pose) (ik_seed_state : list double) (timeout : double)
    (consistency_limits : list double) (solution : list double)
    (solution_callback : IKCallbackFn) (error_code : MoveItErrorCodes)
    (options : KinematicsQueryOptions) : option SearchResult :=
  searchPositionIK_poses self [ik_pose] ik_seed_state timeout
    consistency_limits solution solution_callback error_code options None.

(** ** [getPositionFK] and [getPositionIK] (lines 168-182)

    Each returns its [bool] with the output arguments as it leaves them. *)

Definition getPositionFK (self : GDIKPlugin) (link_names : list string)
    (joint_angles : list double) (poses : list Pose) : bool * list Pose :=
  (false, poses).

Definition getPositionIK (self : GDIKPlugin) (ik_pose : Pose)
    (ik_seed_state : list double) (solution : list double)
    (error_code : MoveItErrorCodes) (options : KinematicsQueryOptions)
  : SearchResult :=
  {| returned := false;
     solution_out := solution;
     error_code_out := error_code |}.

(** ** [initialize] (lines 96-158) *)

(** The condition of lines 128-130. *)
Definition joint_is_named (base_frame_ : string) (joint_model : JointModel)
  : bool :=
  negb (String.eqb (getName joint_model) base_frame_)
  && bool_decide (getType joint_model <> UNKNOWN)
  && bool_decide (getType joint_model <> FIXED).

(** The loop of lines 127-133, from the names already in [joint_names_]. *)
Definition push_joint_names (base_frame_ : string)
    (joint_models : list JointModel) (joint_names_ : list string)
  : list string :=
  fold_left
    (fun joint_names_ joint_model =>
       push_back_if (joint_is_named base_frame_ joint_model) joint_names_
         (getName joint_model))
    joint_models joint_names_.

Definition initialize (self : GDIKPlugin) (node : Node)
    (robot_model : RobotModel) (group_name : string) (base_frame : string)
    (tip_frames : list string) (search_discretization : double)
  : bool * GDIKPlugin :=
  let node_ := Some node in
  let parameter_listener_ :=
    {| listener_node := node;
       listener_prefix := "robot_description_kinematics." +:+ group_name |} in
  let params_ := get_params parameter_listener_ in
  let base := storeValues robot_model group_name base_frame tip_frames
                search_discretization in
  let jmg_ := getJointModelGroup robot_model group_name in
  match jmg_ with
  | None =>
      (false,
       {| base := base;
          node_ := node_;
          parameter_listener_ := Some parameter_listener_;
          params_ := params_;
          jmg_ := None;
          joint_names_ := joint_names_ self;
          link_names_ := link_names_ self;
          robot_ := robot_ self;
          tip_link_indexes_ := tip_link_indexes_ self;
          active_variable_indexes_ := active_variable_indexes_ self;
          minimal_displacement_factors_ :=
            minimal_displacement_factors_ self |})
  | Some jmg =>
      let joint_names_ :=
        push_joint_names (base_frame_ base) (getJointModels jmg)
          (joint_names_ self) in
      let jmg_tips := getEndEffectorTips jmg in
      let tip_frames_ :=
        match jmg_tips with
        | [] => tip_frames_ base
        | _ :: _ => jmg_tips
        end in
      let link_names_ := tip_frames_ in
      let robot_ := Robot_from robot_model in
      let tip_link_indexes_ := get_link_indexes robot_model tip_frames_ in
      let active_variable_indexes_ :=
        get_active_variable_indexes robot_model jmg tip_link_indexes_ in
      let minimal_displacement_factors_ :=
        get_minimal_displacement_factors active_variable_indexes_ robot_ in
      (false,
       {| base :=
            {| robot_model_ := robot_model_ base;
               robot_description_ := robot_description_ base;
               group_name_ := group_name_ base;
               base_frame_ := base_frame_ base;
               tip_frames_ := tip_frames_;
               search_discretization_ := search_discretization_ base |};
          node_ := node_;
          parameter_listener_ := Some parameter_listener_;
          params_ := params_;
          jmg_ := Some jmg;
          joint_names_ := joint_names_;
          link_names_ := link_names_;
          robot_ := robot_;
          tip_link_indexes_ := tip_link_indexes_;
          active_variable_indexes_ := active_variable_indexes_;
          minimal_displacement_factors_ := minimal_displacement_factors_ |})
  end.

(** Lines 160-166. *)
Definition getJointNames (self : GDIKPlugin) : list string := joint_names_ self.

Definition getLinkNames (self : GDIKPlugin) : list string := link_names_ self.

(** A plugin object before [initialize]: null pointers and empty vectors.
    The values of a default [Params] come from the generated header and
    are an argument. *)
Definition GDIKPlugin_new (default_params : Params) : GDIKPlugin :=
  {| base :=
       {| robot_model_ := None;
          robot_description_ := "";
          group_name_ := "";
          base_frame_ := "";
          tip_frames_ := [];
          search_discretization_ := 0x1.999999999999ap-4%float |};
     node_ := None;
     parameter_listener_ := None;
     params_ := default_params;
     jmg_ := None;
     joint_names_ := [];
     link_names_ := [];
     robot_ := Robot_default;
     tip_link_indexes_ := [];
     active_variable_indexes_ := [];
     minimal_displacement_factors_ := [] |}.

End Plugin.

(** ** Reading a goal list *)

Section Goals.
Context `{core : GdIk}.

(** The three goals the plugin builds in. *)
Inductive BuiltinGoal : Set :=
  | center_joints | avoid_joint_limits | minimal_displacement.

#[global] Instance BuiltinGoal_eq_dec : EqDecision BuiltinGoal.
Proof. solve_decision. Defined.

(** Which built-in goal a cost function belongs to, if any. *)
Definition builtin_of (f : CostFn) : option BuiltinGoal :=
  match f with
  | make_center_joints_cost_fn _ _ _ => Some center_joints
  | make_avoid_joint_limits_cost_fn _ _ _ => Some avoid_joint_limits
  | make_minimal_displacement_cost_fn _ _ => Some minimal_displacement
  | make_ik_cost_fn _ _ _ _ _ => None
  end.

Definition is_builtin (k : BuiltinGoal) (g : Goal) : bool :=
  bool_decide (builtin_of (eval g) = Some k).

(** Whether a goal wraps the caller's cost function. *)
Definition is_ik_cost (g : Goal) : bool :=
  match eval g with
  | make_ik_cost_fn _ _ _ _ _ => true
  | _ => false
  end.

(** The configured weight of a built-in goal. *)
Definition builtin_weight (params : Params) (k : BuiltinGoal) : double :=
  match k with
  | center_joints => center_joints_weight params
  | avoid_joint_limits => avoid_joint_limits_weight params
  | minimal_displacement => minimal_displacement_weight params
  end.

(** The goal that lines 63-80 push back for a built-in goal. *)
Definition builtin_goal (self : GDIKPlugin) (active_initial_guess : list double)
    (k : BuiltinGoal) : Goal :=
  {| eval :=
       match k with
       | center_joints =>
           make_center_joints_cost_fn (robot_ self)
             (active_variable_indexes_ self) (minimal_displacement_factors_ self)
       | avoid_joint_limits =>
           make_avoid_joint_limits_cost_fn (robot_ self)
             (active_variable_indexes_ self) (minimal_displacement_factors_ self)
       | minimal_displacement =>
           make_minimal_displacement_cost_fn active_initial_guess
             (minimal_displacement_factors_ self)
       end;
     weight := builtin_weight (params_ self) k |}.

(** The goal that lines 83-85 push back for one pose. *)
Definition ik_cost_goal (self : GDIKPlugin) (cost_function : IKCostFn)
    (initial_guess : list double) (pose : Pose) : Goal :=
  {| eval := make_ik_cost_fn pose cost_function (robot_model_ (base self))
               (jmg_ self) initial_guess;
     weight := 1%float |}.

End Goals.

(** ** The Solution Test *)

Section SolutionTest.
Context `{core : GdIk}.

(** What a frame test and a cost function answer on a candidate joint
    vector. *)
Variable pass : FrameTestFn -> list double -> bool.
Variable cost : CostFn -> list double -> double.

(** Modelled from the spec: the weighted sum of the goal costs of section
    4.3, the sum of [weight_i * cost_i], added up in the order of the goal list
    ([gd_ik/goal.hpp] is not among the sources). *)
Definition weighted_cost_sum (goals : list Goal) (candidate : list double)
  : double :=
  fold_left
    (fun sum goal => (sum + weight goal * cost (eval goal) candidate)%float)
    goals 0%float.

(** Modelled from the spec: the predicate that the closure of
    [make_is_solution_test_fn] computes; its definition in [gd_ik/goal.hpp]
    is not among the sources.  Section 4.4: a candidate is accepted when
    every frame test of [frame_tests] passes on it and the weighted sum of
    its goal costs is at most [cost_threshold]. *)
Definition is_solution (test : SolutionTestFn) (candidate : list double)
  : bool :=
  forallb (fun frame_test => pass frame_test candidate) (test_frame_tests test)
  && (weighted_cost_sum (test_goals test) candidate
        <=? test_cost_threshold test)%float.

End SolutionTest.

(** ** An implementation of the interface, and a two-joint arm *)

(** Modelled from the spec: the functions of [gd_ik/frame.hpp],
    [gd_ik/goal.hpp] and [gd_ik/robot.hpp] that the plugin calls; the
    headers are not among the sources.  The variables of a state are its
    positions, and [select] takes the entries of the full vector at the
    given indexes (section 4.5, INITIALIZING; an index out of range, a fatal
    configuration error there, selects nothing here).  The active variables
    are those of the group's joints that are neither fixed nor of unknown
    type (section 4.1; the function is not given the base frame), with one
    displacement factor each (section 3).  A
    link index is the position of the name among the model's links.  The
    frame of a pose is the pose, the robot is its model, and a frame test is
    a goal frame with its three tolerances. *)
#[export] Instance spec_core : GdIk := {|
  Frame := Pose;
  Robot := option RobotModel;
  FrameTestFn := Pose * (double * double * double);
  Robot_default := None;
  Robot_from := Some;
  get_link_indexes := fun robot_model names =>
    omap (fun name =>
            fst <$> list_find (fun link => link = name)
                      (getLinkModelNames robot_model))
         names;
  get_active_variable_indexes := fun robot_model jmg tip_link_indexes =>
    map getFirstVariableIndex
      (List.filter
         (fun joint_model =>
            bool_decide (getType joint_model <> FIXED)
            && bool_decide (getType joint_model <> UNKNOWN))
         (getJointModels jmg));
  get_minimal_displacement_factors := fun active_variable_indexes robot =>
    map (fun _ => 1%float) active_variable_indexes;
  get_variables := getVariablePositions;
  select := fun values indexes => omap (fun index => values !! index) indexes;
  transform_poses_to_frames := fun state poses base_frame => poses;
  make_frame_tests := fun goal_frames position_threshold rotation_threshold
                          twist_threshold =>
    map (fun frame =>
           (frame, (position_threshold, rotation_threshold, twist_threshold)))
        goal_frames
|}.

Module Arm.

(** A joint that carries the name of the base frame, two arm joints, a
    fixed flange and a joint of unknown type. *)
Definition base_joint : JointModel :=
  {| getName := "base_link"; getType := REVOLUTE; getFirstVariableIndex := 0 |}.

Definition shoulder : JointModel :=
  {| getName := "shoulder"; getType := REVOLUTE; getFirstVariableIndex := 1 |}.

Definition elbow : JointModel :=
  {| getName := "elbow"; getType := PRISMATIC; getFirstVariableIndex := 2 |}.

Definition flange : JointModel :=
  {| getName := "flange"; getType := FIXED; getFirstVariableIndex := 3 |}.

Definition sensor : JointModel :=
  {| getName := "sensor"; getType := UNKNOWN; getFirstVariableIndex := 3 |}.

Definition group : JointModelGroup :=
  {| getJointModels := [base_joint; shoulder; elbow; flange; sensor];
     getEndEffectorTips := [] |}.

Definition model : RobotModel :=
  {| joint_model_groups := {[ "arm" := group ]};
     getLinkModelNames := ["base_link"; "upper_arm"; "forearm"; "tool0"];
     getVariableDefaultPositions := [0; 0; 0]%float |}.

(** Loose tolerances; the centring goal is on, the other two are off. *)
Definition params : Params :=
  {| position_threshold := 1000%float;
     rotation_threshold := 1000%float;
     twist_threshold := 1000%float;
     cost_threshold := 1000%float;
     center_joints_weight := 2%float;
     avoid_joint_limits_weight := 0%float;
     minimal_displacement_weight := 0%float |}.

Definition node : Node := {| node_parameters := fun _ => params |}.

Definition fresh : GDIKPlugin := GDIKPlugin_new params.

(** The plugin after [initialize] for the group ["arm"]. *)
Definition plugin : GDIKPlugin :=
  snd (initialize fresh node model "arm" "/base_link" ["/tool0"] 0%float).

Definition identity_pose : Pose :=
  {| position_x := 0%float; position_y := 0%float; position_z := 0%float;
     orientation_x := 0%float; orientation_y := 0%float;
     orientation_z := 0%float; orientation_w := 1%float |}.

Definition seed : list double := [1; 2; 3]%float.

Definition success : MoveItErrorCodes := {| val := 1 |}.

Definition options : KinematicsQueryOptions :=
  {| lock_redundant_joints := false; return_approximate_solution := false |}.

Definition unit_cost : IKCostFn := Some (fun _ _ _ _ => 1%float).

End Arm.

(** ** The active-variable set, as the specification words it *)




(** The arm with a second group, a gripper of one finger. *)
Module Gripper.

Definition finger : JointModel :=
  {| getName := "finger"; getType := PRISMATIC; getFirstVariableIndex := 3 |}.

Definition group : JointModelGroup :=
  {| getJointModels := [finger]; getEndEffectorTips := [] |}.

Definition model : RobotModel :=
  {| joint_model_groups := <[ "gripper" := group ]> {[ "arm" := Arm.group ]};
     getLinkModelNames :=
       ["base_link"; "upper_arm"; "forearm"; "tool0"; "finger_tip"];
     getVariableDefaultPositions := [0; 0; 0; 0]%float |}.

(** The plugin initialised for the arm, then for the gripper. *)
Definition plugin : GDIKPlugin :=
  snd (initialize
         (snd (initialize Arm.fresh Arm.node model "arm" "/base_link"
                 ["/tool0"] 0%float))
         Arm.node model "gripper" "/base_link" ["/finger_tip"] 0%float).

End Gripper.

(** * Properties *)

(** ** Comparisons of binary64 numbers *)

Lemma SFcompare_swap (x y : spec_float) :
  SFcompare y x = option_map CompOpp (SFcompare x y).
Proof.
  destruct x as [sx| sx| |sx mx ex], y as [sy| sy| |sy my ey]; simpl;
    try reflexivity;
    try (destruct sx; reflexivity); try (destruct sy; reflexivity);
    try (destruct sx, sy; reflexivity).
  destruct sx, sy; try reflexivity;
    rewrite (Z.compare_antisym ex ey); destruct (ex ?= ey)%Z; simpl;
    try reflexivity;
    change (Pos.compare_cont Eq my mx) with (my ?= mx)%positive;
    change (Pos.compare_cont Eq mx my) with (mx ?= my)%positive;
    rewrite (Pos.compare_antisym mx my); destruct (mx ?= my)%positive;
    reflexivity.
Qed.

(** A number that exceeds another is not at most it. *)
Lemma ltb_leb_false (x y : double) :
  (x <? y)%float = true -> (y <=? x)%float = false.
Proof.
  rewrite FloatAxioms.ltb_spec, FloatAxioms.leb_spec. unfold SFltb, SFleb.
  rewrite (SFcompare_swap (Prim2SF x) (Prim2SF y)).
  destruct (SFcompare (Prim2SF x) (Prim2SF y)) as [[]|]; simpl; congruence.
Qed.

(** A number that compares equal to another (so [-0] to [0]) does not
    exceed it. *)
Lemma eqb_ltb_false (x y : double) :
  (x =? y)%float = true -> (y <? x)%float = false.
Proof.
  rewrite FloatAxioms.eqb_spec, FloatAxioms.ltb_spec. unfold SFeqb, SFltb.
  rewrite (SFcompare_swap (Prim2SF x) (Prim2SF y)).
  destruct (SFcompare (Prim2SF x) (Prim2SF y)) as [[]|]; simpl; congruence.
Qed.

(** ** Vectors filled by [push_back] *)

Lemma fold_left_push_back {A B : Type} (f : B -> A) (xs : list B) (v : list A) :
  fold_left (fun v x => v ++ [f x]) xs v = v ++ map f xs.
Proof.
  revert v. induction xs as [|x xs IH]; intros v; simpl.
  - now rewrite app_nil_r.
  - rewrite IH, <- app_assoc. reflexivity.
Qed.

Lemma fold_left_push_back_if {A B : Type} (c : B -> bool) (f : B -> A)
    (xs : list B) (v : list A) :
  fold_left (fun v x => push_back_if (c x) v (f x)) xs v
  = v ++ map f (List.filter c xs).
Proof.
  revert v. induction xs as [|x xs IH]; intros v; simpl.
  - now rewrite app_nil_r.
  - rewrite IH. unfold push_back_if. destruct (c x); simpl.
    + now rewrite <- app_assoc.
    + reflexivity.
Qed.

(** ** [initialize] *)

Section InitializeFacts.
Context `{core : GdIk}.

Lemma joint_is_named_true (base_frame_ : string) (j : JointModel) :
  joint_is_named base_frame_ j = true
  <-> getName j <> base_frame_ /\ getType j <> UNKNOWN /\ getType j <> FIXED.
Proof.
  unfold joint_is_named.
  rewrite !andb_true_iff, negb_true_iff, String.eqb_neq, !bool_decide_eq_true.
  tauto.
Qed.


(** The loop of lines 127-133 appends the names of the joints that pass its
    test, in the order of the group. *)
Lemma push_joint_names_filter (base_frame_ : string)
    (joint_models : list JointModel) (joint_names_ : list string) :
  push_joint_names base_frame_ joint_models joint_names_
  = joint_names_
    ++ map getName (List.filter (joint_is_named base_frame_) joint_models).
Proof. apply fold_left_push_back_if. Qed.

Lemma initialize_base_frame (self : GDIKPlugin) (node : Node)
    (robot_model : RobotModel) (group_name base_frame : string)
    (tip_frames : list string) (search_discretization : double) :
  getBaseFrame
    (snd (initialize self node robot_model group_name base_frame tip_frames
            search_discretization))
  = removeSlash base_frame.
Proof.
  unfold initialize.
  destruct (getJointModelGroup robot_model group_name); reflexivity.
Qed.

Lemma initialize_joint_names (self : GDIKPlugin) (node : Node)
    (robot_model : RobotModel) (group_name base_frame : string)
    (tip_frames : list string) (search_discretization : double)
    (jmg : JointModelGroup) :
  getJointModelGroup robot_model group_name = Some jmg ->
  getJointNames
    (snd (initialize self node robot_model group_name base_frame tip_frames
            search_discretization))
  = getJointNames self
    ++ map getName
         (List.filter (joint_is_named (removeSlash base_frame))
            (getJointModels jmg)).
Proof.
  intros Hgroup. unfold initialize. rewrite Hgroup. simpl.
  unfold getJointNames. simpl. apply push_joint_names_filter.
Qed.

(** Whatever the model and the group, [initialize] returns [false]. *)
Lemma initialize_returns_false (self : GDIKPlugin) (node : Node)
    (robot_model : RobotModel) (group_name base_frame : string)
    (tip_frames : list string) (search_discretization : double) :
  fst (initialize self node robot_model group_name base_frame tip_frames
         search_discretization) = false.
Proof.
  unfold initialize.
  destruct (getJointModelGroup robot_model group_name); reflexivity.
Qed.

(** X1.  Without the group, [initialize] stops at line 123: the members computed
    from the group keep their values, the members assigned before the test
    (node, parameters, the values of [storeValues], a null [jmg_]) are set. *)
Lemma initialize_group_absent (self : GDIKPlugin) (node : Node)
    (robot_model : RobotModel) (group_name base_frame : string)
    (tip_frames : list string) (search_discretization : double) :
  getJointModelGroup robot_model group_name = None ->
  let result :=
    initialize self node robot_model group_name base_frame tip_frames
      search_discretization in
  fst result = false
  /\ jmg_ (snd result) = None
  /\ joint_names_ (snd result) = joint_names_ self
  /\ link_names_ (snd result) = link_names_ self
  /\ robot_ (snd result) = robot_ self
  /\ tip_link_indexes_ (snd result) = tip_link_indexes_ self
  /\ active_variable_indexes_ (snd result) = active_variable_indexes_ self
  /\ minimal_displacement_factors_ (snd result)
     = minimal_displacement_factors_ self
  /\ node_ (snd result) = Some node
  /\ robot_model_ (base (snd result)) = Some robot_model.
Proof.
  intros Hgroup. unfold initialize. rewrite Hgroup. simpl.
  repeat split; reflexivity.
Qed.



End InitializeFacts.



(** C3 (the source departs from it).  The model of the arm has the group
    ["arm"], and [initialize] for that group, having set every member,
    returns [false]. *)
Theorem initialize_group_present_returns_false :
  getJointModelGroup Arm.model "arm" = Some Arm.group
  /\ fst (initialize Arm.fresh Arm.node Arm.model "arm" "/base_link"
            ["/tool0"] 0%float) = false
  /\ jmg_ Arm.plugin = Some Arm.group
  /\ getJointNames Arm.plugin = ["shoulder"; "elbow"]
  /\ getLinkNames Arm.plugin = ["tool0"]
  /\ active_variable_indexes_ Arm.plugin = [0; 1; 2].
Proof. repeat split; vm_compute; reflexivity. Qed.

(** ** The goals of a search call *)

Section SearchFacts.
Context `{core : GdIk}.

(** The goal list of lines 62-87, part by part. *)
Lemma create_goals_parts (self : GDIKPlugin) (ik_poses : list Pose)
    (cost_function : IKCostFn) (initial_guess active_initial_guess : list double) :
  create_goals self ik_poses cost_function initial_guess active_initial_guess
  = (if (0 <? center_joints_weight (params_ self))%float
     then [builtin_goal self active_initial_guess center_joints] else [])
    ++ (if (0 <? avoid_joint_limits_weight (params_ self))%float
        then [builtin_goal self active_initial_guess avoid_joint_limits]
        else [])
    ++ (if (0 <? minimal_displacement_weight (params_ self))%float
        then [builtin_goal self active_initial_guess minimal_displacement]
        else [])
    ++ match cost_function with
       | Some _ => map (ik_cost_goal self cost_function initial_guess) ik_poses
       | None => []
       end.
Proof.
  unfold create_goals, push_back_if, builtin_goal, ik_cost_goal. simpl.
  destruct cost_function as [f|].
  - rewrite fold_left_push_back.
    destruct (0 <? center_joints_weight (params_ self))%float,
             (0 <? avoid_joint_limits_weight (params_ self))%float,
             (0 <? minimal_displacement_weight (params_ self))%float;
      simpl; reflexivity.
  - destruct (0 <? center_joints_weight (params_ self))%float,
             (0 <? avoid_joint_limits_weight (params_ self))%float,
             (0 <? minimal_displacement_weight (params_ self))%float;
      simpl; reflexivity.
Qed.

Lemma filter_builtin_ik_cost_goals (k : BuiltinGoal) (self : GDIKPlugin)
    (cost_function : IKCostFn) (initial_guess : list double)
    (ik_poses : list Pose) :
  List.filter (is_builtin k)
    (map (ik_cost_goal self cost_function initial_guess) ik_poses) = [].
Proof. induction ik_poses as [|pose poses IH]; simpl; [reflexivity | exact IH]. Qed.

Lemma filter_ik_cost_goals (self : GDIKPlugin) (cost_function : IKCostFn)
    (initial_guess : list double) (ik_poses : list Pose) :
  List.filter is_ik_cost
    (map (ik_cost_goal self cost_function initial_guess) ik_poses)
  = map (ik_cost_goal self cost_function initial_guess) ik_poses.
Proof.
  induction ik_poses as [|pose poses IH]; simpl; [reflexivity | now rewrite IH].
Qed.

(** Of a built-in goal, the goal list holds one goal when the configured
    weight is positive and none otherwise. *)
Lemma filter_builtin_create_goals (k : BuiltinGoal) (self : GDIKPlugin)
    (ik_poses : list Pose) (cost_function : IKCostFn)
    (initial_guess active_initial_guess : list double) :
  List.filter (is_builtin k)
    (create_goals self ik_poses cost_function initial_guess
       active_initial_guess)
  = if (0 <? builtin_weight (params_ self) k)%float
    then [builtin_goal self active_initial_guess k] else [].
Proof.
  rewrite create_goals_parts, !List.filter_app.
  assert (Hext :
    List.filter (is_builtin k)
      match cost_function with
      | Some _ => map (ik_cost_goal self cost_function initial_guess) ik_poses
      | None => []
      end = []).
  { destruct cost_function; [apply filter_builtin_ik_cost_goals | reflexivity]. }
  rewrite Hext.
  destruct k; simpl;
    destruct (0 <? center_joints_weight (params_ self))%float,
             (0 <? avoid_joint_limits_weight (params_ self))%float,
             (0 <? minimal_displacement_weight (params_ self))%float;
    reflexivity.
Qed.

(** Of the caller's cost function, the goal list holds one goal for each
    pose, in the order of the poses, when the function is given, and none
    otherwise. *)
Lemma filter_ik_cost_create_goals (self : GDIKPlugin) (ik_poses : list Pose)
    (cost_function : IKCostFn)
    (initial_guess active_initial_guess : list double) :
  List.filter is_ik_cost
    (create_goals self ik_poses cost_function initial_guess
       active_initial_guess)
  = match cost_function with
    | Some _ => map (ik_cost_goal self cost_function initial_guess) ik_poses
    | None => []
    end.
Proof.
  rewrite create_goals_parts, !List.filter_app.
  assert (Hext :
    List.filter is_ik_cost
      match cost_function with
      | Some _ => map (ik_cost_goal self cost_function initial_guess) ik_poses
      | None => []
      end
    = match cost_function with
      | Some _ => map (ik_cost_goal self cost_function initial_guess) ik_poses
      | None => []
      end).
  { destruct cost_function; [apply filter_ik_cost_goals | reflexivity]. }
  rewrite Hext.
  destruct (0 <? center_joints_weight (params_ self))%float,
           (0 <? avoid_joint_limits_weight (params_ self))%float,
           (0 <? minimal_displacement_weight (params_ self))%float;
    reflexivity.
Qed.

(** What the locals of a search call are made from. *)
Lemma search_locals_inv (self : GDIKPlugin) (ik_poses : list Pose)
    (ik_seed_state : list double) (timeout : double)
    (consistency_limits solution : list double)
    (solution_callback : IKCallbackFn) (cost_function : IKCostFn)
    (error_code : MoveItErrorCodes) (options : KinematicsQueryOptions)
    (context_state : option RobotState) (locals : SearchLocals) :
  search_locals self ik_poses ik_seed_state timeout consistency_limits
    solution solution_callback cost_function error_code options context_state
  = Some locals ->
  exists state : RobotState,
    context_state_or_default self context_state = Some state
    /\ initial_guess locals = get_variables state
    /\ active_initial_guess locals
       = select (get_variables state) (active_variable_indexes_ self)
    /\ goals locals
       = create_goals self ik_poses cost_function (initial_guess locals)
           (active_initial_guess locals)
    /\ solution_test locals
       = make_is_solution_test_fn (frame_tests locals) (goals locals)
           (cost_threshold (params_ self)).
Proof.
  unfold search_locals.
  destruct (context_state_or_default self context_state) as [state|];
    [|discriminate].
  intros [= <-]. exists state. simpl. repeat split; reflexivity.
Qed.

(** The seed argument is not read: two calls that differ in it alone have
    the same locals. *)
Lemma search_locals_seed_irrelevant (self : GDIKPlugin) (ik_poses : list Pose)
    (seed1 seed2 : list double) (timeout : double)
    (consistency_limits solution : list double)
    (solution_callback : IKCallbackFn) (cost_function : IKCostFn)
    (error_code : MoveItErrorCodes) (options : KinematicsQueryOptions)
    (context_state : option RobotState) :
  search_locals self ik_poses seed1 timeout consistency_limits solution
    solution_callback cost_function error_code options context_state
  = search_locals self ik_poses seed2 timeout consistency_limits solution
      solution_callback cost_function error_code options context_state.
Proof. reflexivity. Qed.

(** C4.  In a search call, for each built-in goal (center-joints,
    avoid-joint-limits, minimal-displacement): the goal list holds the goal
    of that kind, once and with the configured weight, when the weight is
    greater than 0, and holds no goal of that kind otherwise; so a goal of
    the kind is in the list exactly when its weight is positive, a weight
    equal to 0 leaves none in the list, and the solution test is made from
    this very list. *)
Theorem builtin_goal_added_iff_weight_positive (self : GDIKPlugin)
    (ik_poses : list Pose) (ik_seed_state : list double) (timeout : double)
    (consistency_limits solution : list double)
    (solution_callback : IKCallbackFn) (cost_function : IKCostFn)
    (error_code : MoveItErrorCodes) (options : KinematicsQueryOptions)
    (context_state : option RobotState) (locals : SearchLocals)
    (k : BuiltinGoal) :
  search_locals self ik_poses ik_seed_state timeout consistency_limits
    solution solution_callback cost_function error_code options context_state
  = Some locals ->
  List.filter (is_builtin k) (goals locals)
  = (if (0 <? builtin_weight (params_ self) k)%float
     then [builtin_goal self (active_initial_guess locals) k] else [])
  /\ ((exists g : Goal, In g (goals locals) /\ is_builtin k g = true)
      <-> (0 <? builtin_weight (params_ self) k)%float = true)
  /\ ((builtin_weight (params_ self) k =? 0)%float = true ->
      forall g : Goal, In g (goals locals) -> is_builtin k g = false)
  /\ test_goals (solution_test locals) = goals locals.
Proof.
  intros Hlocals.
  destruct (search_locals_inv _ _ _ _ _ _ _ _ _ _ _ _ Hlocals)
    as (state & _ & _ & _ & Hgoals & Htest).
  assert (Hfilter :
    List.filter (is_builtin k) (goals locals)
    = if (0 <? builtin_weight (params_ self) k)%float
      then [builtin_goal self (active_initial_guess locals) k] else []).
  { rewrite Hgoals at 1. apply filter_builtin_create_goals. }
  assert (Hiff :
    (exists g : Goal, In g (goals locals) /\ is_builtin k g = true)
    <-> (0 <? builtin_weight (params_ self) k)%float = true).
  { split.
    - intros (g & Hin & Hk).
      assert (Hg : In g (List.filter (is_builtin k) (goals locals)))
        by (apply filter_In; split; assumption).
      rewrite Hfilter in Hg.
      destruct (0 <? builtin_weight (params_ self) k)%float;
        [reflexivity | destruct Hg].
    - intros Hpos. rewrite Hpos in Hfilter.
      exists (builtin_goal self (active_initial_guess locals) k).
      apply filter_In. rewrite Hfilter. left. reflexivity. }
  split; [exact Hfilter|]. split; [exact Hiff|]. split.
  - intros Hzero g Hin.
    destruct (is_builtin k g) eqn:Hk; [|reflexivity].
    apply eqb_ltb_false in Hzero.
    rewrite <- Hzero. symmetry. apply Hiff. exists g. split; assumption.
  - rewrite Htest. reflexivity.
Qed.

(** C7.  In a search call, the goals made from the caller's cost function
    are, when the function is given, one goal for each pose of the request,
    in the order of the poses, each of weight 1.0 (as many as there are
    poses); when no function is given there is no such goal. *)
Theorem ik_cost_goal_per_pose (self : GDIKPlugin)
    (ik_poses : list Pose) (ik_seed_state : list double) (timeout : double)
    (consistency_limits solution : list double)
    (solution_callback : IKCallbackFn) (cost_function : IKCostFn)
    (error_code : MoveItErrorCodes) (options : KinematicsQueryOptions)
    (context_state : option RobotState) (locals : SearchLocals) :
  search_locals self ik_poses ik_seed_state timeout consistency_limits
    solution solution_callback cost_function error_code options context_state
  = Some locals ->
  List.filter is_ik_cost (goals locals)
  = match cost_function with
    | Some _ =>
        map (ik_cost_goal self cost_function (initial_guess locals)) ik_poses
    | None => []
    end
  /\ (is_Some cost_function ->
      length (List.filter is_ik_cost (goals locals)) = length ik_poses
      /\ forall g : Goal,
           In g (List.filter is_ik_cost (goals locals)) ->
           weight g = 1%float)
  /\ (cost_function = None ->
      forall g : Goal, In g (goals locals) -> is_ik_cost g = false).
Proof.
  intros Hlocals.
  destruct (search_locals_inv _ _ _ _ _ _ _ _ _ _ _ _ Hlocals)
    as (state & _ & _ & _ & Hgoals & _).
  assert (Hfilter :
    List.filter is_ik_cost (goals locals)
    = match cost_function with
      | Some _ =>
          map (ik_cost_goal self cost_function (initial_guess locals)) ik_poses
      | None => []
      end).
  { rewrite Hgoals at 1. apply filter_ik_cost_create_goals. }
  split; [exact Hfilter|]. split.
  - intros [f ->]. rewrite Hfilter. split.
    + apply length_map.
    + intros g Hin. apply in_map_iff in Hin as (pose & <- & _). reflexivity.
  - intros -> g Hin.
    destruct (is_ik_cost g) eqn:Hk; [|reflexivity].
    assert (Hg : In g (List.filter is_ik_cost (goals locals)))
      by (apply filter_In; split; assumption).
    rewrite Hfilter in Hg. destruct Hg.
Qed.

End SearchFacts.

(** ** The result of a search call *)

Section ResultFacts.
Context `{core : GdIk}.

(** A search call that returns, returns [false] and has written neither
    [solution] nor [error_code]. *)
Lemma searchPositionIK_result (self : GDIKPlugin) (ik_poses : list Pose)
    (ik_seed_state : list double) (timeout : double)
    (consistency_limits solution : list double)
    (solution_callback : IKCallbackFn) (cost_function : IKCostFn)
    (error_code : MoveItErrorCodes) (options : KinematicsQueryOptions)
    (context_state : option RobotState) (r : SearchResult) :
  searchPositionIK self ik_poses ik_seed_state timeout consistency_limits
    solution solution_callback cost_function error_code options context_state
  = Some r ->
  r = {| returned := false;
         solution_out := solution;
         error_code_out := error_code |}.
Proof.
  unfold searchPositionIK.
  destruct (search_locals self ik_poses ik_seed_state timeout
              consistency_limits solution solution_callback cost_function
              error_code options context_state); [|discriminate].
  intros [= <-]. reflexivity.
Qed.

(** C1 (the source departs from it).  Whatever the poses, the seed, the
    timeout and the parameters, the search entry point never returns
    success: the call has no result (it read the null robot model), or it
    returns [false] and leaves [solution] and [error_code] as they were. *)
Theorem searchPositionIK_never_succeeds (self : GDIKPlugin)
    (ik_poses : list Pose) (ik_seed_state : list double) (timeout : double)
    (consistency_limits solution : list double)
    (solution_callback : IKCallbackFn) (cost_function : IKCostFn)
    (error_code : MoveItErrorCodes) (options : KinematicsQueryOptions)
    (context_state : option RobotState) :
  searchPositionIK self ik_poses ik_seed_state timeout consistency_limits
    solution solution_callback cost_function error_code options context_state
  = None
  \/ searchPositionIK self ik_poses ik_seed_state timeout consistency_limits
       solution solution_callback cost_function error_code options
       context_state
     = Some {| returned := false;
               solution_out := solution;
               error_code_out := error_code |}.
Proof.
  unfold searchPositionIK.
  destruct (search_locals self ik_poses ik_seed_state timeout
              consistency_limits solution solution_callback cost_function
              error_code options context_state); [right | left]; reflexivity.
Qed.

(** C8.  When a search call, through any of the six overloads, returns
    failure, the [solution] vector of the caller is as it was before the
    call. *)
Theorem failed_search_leaves_solution (self : GDIKPlugin) (ik_pose : Pose)
    (ik_poses : list Pose) (ik_seed_state : list double) (timeout : double)
    (consistency_limits solution : list double)
    (solution_callback : IKCallbackFn) (cost_function : IKCostFn)
    (error_code : MoveItErrorCodes) (options : KinematicsQueryOptions)
    (context_state : option RobotState) (r : SearchResult) :
  In (Some r)
    [ searchPositionIK self ik_poses ik_seed_state timeout consistency_limits
        solution solution_callback cost_function error_code options
        context_state;
      searchPositionIK_poses self ik_poses ik_seed_state timeout
        consistency_limits solution solution_callback error_code options
        context_state;
      searchPositionIK_pose self ik_pose ik_seed_state timeout solution
        error_code options;
      searchPositionIK_pose_limits self ik_pose ik_seed_state timeout
        consistency_limits solution error_code options;
      searchPositionIK_pose_callback self ik_pose ik_seed_state timeout
        solution solution_callback error_code options;
      searchPositionIK_pose_limits_callback self ik_pose ik_seed_state
        timeout consistency_limits solution solution_callback error_code
        options ] ->
  returned r = false ->
  solution_out r = solution.
Proof.
  unfold searchPositionIK_pose, searchPositionIK_pose_limits,
    searchPositionIK_pose_callback, searchPositionIK_pose_limits_callback,
    searchPositionIK_poses.
  simpl. intros Hcall _.
  repeat (destruct Hcall as [Hcall|Hcall];
          [apply searchPositionIK_result in Hcall; rewrite Hcall;
           reflexivity|]).
  destruct Hcall.
Qed.

(** C9.  Each single-pose overload is the multi-pose overload on the list
    of that one pose, with an empty consistency-limit vector and a null
    callback where the overload has no such parameter and no context
    state; the multi-pose overload is the full overload with a null cost
    function. *)
Theorem overloads_delegate (self : GDIKPlugin) (ik_pose : Pose)
    (ik_poses : list Pose) (ik_seed_state : list double) (timeout : double)
    (consistency_limits solution : list double)
    (solution_callback : IKCallbackFn) (error_code : MoveItErrorCodes)
    (options : KinematicsQueryOptions) (context_state : option RobotState) :
  searchPositionIK_pose self ik_pose ik_seed_state timeout solution
    error_code options
  = searchPositionIK_poses self [ik_pose] ik_seed_state timeout [] solution
      None error_code options None
  /\ searchPositionIK_pose_limits self ik_pose ik_seed_state timeout
       consistency_limits solution error_code options
     = searchPositionIK_poses self [ik_pose] ik_seed_state timeout
         consistency_limits solution None error_code options None
  /\ searchPositionIK_pose_callback self ik_pose ik_seed_state timeout
       solution solution_callback error_code options
     = searchPositionIK_poses self [ik_pose] ik_seed_state timeout []
         solution solution_callback error_code options None
  /\ searchPositionIK_pose_limits_callback self ik_pose ik_seed_state timeout
       consistency_limits solution solution_callback error_code options
     = searchPositionIK_poses self [ik_pose] ik_seed_state timeout
         consistency_limits solution solution_callback error_code options
         None
  /\ searchPositionIK_poses self ik_poses ik_seed_state timeout
       consistency_limits solution solution_callback error_code options
       context_state
     = searchPositionIK self ik_poses ik_seed_state timeout
         consistency_limits solution solution_callback None error_code
         options context_state.
Proof. repeat split; reflexivity. Qed.

(** C10.  Whatever their arguments, [getPositionFK] and [getPositionIK]
    return [false]; the poses, the solution and the error code they are
    given for output are as they were. *)
Theorem getPosition_returns_false (self : GDIKPlugin)
    (link_names : list string) (joint_angles : list double)
    (poses : list Pose) (ik_pose : Pose) (ik_seed_state solution : list double)
    (error_code : MoveItErrorCodes) (options : KinematicsQueryOptions) :
  getPositionFK self link_names joint_angles poses = (false, poses)
  /\ getPositionIK self ik_pose ik_seed_state solution error_code options
     = {| returned := false;
          solution_out := solution;
          error_code_out := error_code |}.
Proof. split; reflexivity. Qed.

End ResultFacts.

(** ** The Solution Test *)

Section SolutionTestFacts.
Context `{core : GdIk}.
Variable pass : FrameTestFn -> list double -> bool.

(** C5.  The Solution Test accepts a candidate exactly when every frame
    test passes on it and the weighted sum of the goal costs is at most the
    cost threshold; a candidate on which every frame test passes but whose
    weighted sum exceeds the threshold is rejected, and a candidate whose
    weighted sum is at most the threshold but on which some frame test
    fails is rejected. *)
Theorem is_solution_conjunction (cost : CostFn -> list double -> double)
    (test : SolutionTestFn) (candidate : list double) :
  (is_solution pass cost test candidate = true
   <-> (forall frame_test : FrameTestFn,
          In frame_test (test_frame_tests test) ->
          pass frame_test candidate = true)
       /\ (weighted_cost_sum cost (test_goals test) candidate
             <=? test_cost_threshold test)%float = true)
  /\ ((forall frame_test : FrameTestFn,
         In frame_test (test_frame_tests test) ->
         pass frame_test candidate = true) ->
      (test_cost_threshold test
         <? weighted_cost_sum cost (test_goals test) candidate)%float = true ->
      is_solution pass cost test candidate = false)
  /\ ((weighted_cost_sum cost (test_goals test) candidate
         <=? test_cost_threshold test)%float = true ->
      (exists frame_test : FrameTestFn,
         In frame_test (test_frame_tests test)
         /\ pass frame_test candidate = false) ->
      is_solution pass cost test candidate = false).
Proof.
  unfold is_solution. split; [|split].
  - rewrite andb_true_iff, forallb_forall. reflexivity.
  - intros _ Hexceeds. apply ltb_leb_false in Hexceeds.
    rewrite Hexceeds. apply andb_false_r.
  - intros _ (frame_test & Hin & Hfails).
    apply andb_false_iff. left.
    destruct (forallb (fun frame_test => pass frame_test candidate)
                (test_frame_tests test)) eqn:Hall; [|reflexivity].
    rewrite forallb_forall in Hall. rewrite (Hall _ Hin) in Hfails.
    discriminate.
Qed.

(** The weighted sum reads the costs of the goals of the list and no
    other. *)
Lemma weighted_cost_sum_ext (cost1 cost2 : CostFn -> list double -> double)
    (goals : list Goal) (candidate : list double) :
  (forall g : Goal,
     In g goals -> cost1 (eval g) candidate = cost2 (eval g) candidate) ->
  weighted_cost_sum cost1 goals candidate
  = weighted_cost_sum cost2 goals candidate.
Proof.
  unfold weighted_cost_sum. generalize 0%float as sum.
  induction goals as [|g goals IH]; intros sum Hsame; simpl; [reflexivity|].
  rewrite (Hsame g (or_introl eq_refl)).
  apply IH. intros g' Hin. apply Hsame. right. exact Hin.
Qed.

(** With the weight of a built-in goal at 0, what its cost function would
    answer has no part in the weighted sum nor in acceptance. *)
Lemma zero_weight_goal_irrelevant (cost1 cost2 : CostFn -> list double -> double)
    (self : GDIKPlugin) (ik_poses : list Pose) (ik_seed_state : list double)
    (timeout : double) (consistency_limits solution : list double)
    (solution_callback : IKCallbackFn) (cost_function : IKCostFn)
    (error_code : MoveItErrorCodes) (options : KinematicsQueryOptions)
    (context_state : option RobotState) (locals : SearchLocals)
    (k : BuiltinGoal) (candidate : list double) :
  search_locals self ik_poses ik_seed_state timeout consistency_limits
    solution solution_callback cost_function error_code options context_state
  = Some locals ->
  (builtin_weight (params_ self) k =? 0)%float = true ->
  (forall f : CostFn,
     builtin_of f <> Some k -> cost1 f candidate = cost2 f candidate) ->
  weighted_cost_sum cost1 (goals locals) candidate
  = weighted_cost_sum cost2 (goals locals) candidate
  /\ is_solution pass cost1 (solution_test locals) candidate
     = is_solution pass cost2 (solution_test locals) candidate.
Proof.
  intros Hlocals Hzero Hsame.
  destruct (search_locals_inv _ _ _ _ _ _ _ _ _ _ _ _ Hlocals)
    as (state & _ & _ & _ & Hgoals & Htest).
  assert (Hsum :
    weighted_cost_sum cost1 (goals locals) candidate
    = weighted_cost_sum cost2 (goals locals) candidate).
  { apply weighted_cost_sum_ext. intros g Hin. apply Hsame. intros Hk.
    assert (Hg : In g (List.filter (is_builtin k) (goals locals))).
    { apply filter_In. split; [exact Hin|].
      unfold is_builtin. apply bool_decide_eq_true. exact Hk. }
    rewrite Hgoals, filter_builtin_create_goals in Hg.
    rewrite (eqb_ltb_false _ _ Hzero) in Hg. destruct Hg. }
  split; [exact Hsum|].
  unfold is_solution. rewrite Htest. simpl. rewrite Hsum. reflexivity.
Qed.

End SolutionTestFacts.

(** ** The plugin on the arm *)

(** The Solution Test on a request for the arm, with a frame test that
    passes when the candidate has three entries and a cost of 1 for every
    goal: the centring goal of weight 2 gives the sum 2, accepted under the
    threshold 1000; a candidate of two entries fails the frame test. *)
Lemma is_solution_arm :
  (fun test =>
     is_solution (fun _ candidate => bool_decide (length candidate = 3))
       (fun _ _ => 1%float) test [0; 0; 0]%float = true
     /\ is_solution (fun _ candidate => bool_decide (length candidate = 3))
          (fun _ _ => 1%float) test [0; 0]%float = false
     /\ is_solution (fun _ candidate => bool_decide (length candidate = 3))
          (fun _ _ => 1000%float) test [0; 0; 0]%float = false)
    (make_is_solution_test_fn
       (make_frame_tests [Arm.identity_pose] 1000%float 1000%float 1000%float)
       (create_goals Arm.plugin [Arm.identity_pose] None [0; 0; 0]%float
          [0; 0; 0]%float)
       (cost_threshold (params_ Arm.plugin))).
Proof. repeat split; vm_compute; reflexivity. Qed.

(** C1 on the arm: with loose tolerances and whatever the target pose, the
    search returns [false]. *)
Lemma searchPositionIK_arm (ik_pose : Pose) :
  searchPositionIK_pose Arm.plugin ik_pose Arm.seed 1%float [] Arm.success
    Arm.options
  = Some {| returned := false;
            solution_out := [];
            error_code_out := Arm.success |}.
Proof. reflexivity. Qed.

(** C2 (the source departs from it).  On the arm, whose active variables
    are the three variables of the model, a search call with the seed
    [1; 2; 3] and no context state starts from [0; 0; 0], the default
    values of the model, and not from the entries of the seed at the active
    indexes. *)
Theorem searchPositionIK_ignores_seed :
  active_variable_indexes_ Arm.plugin = [0; 1; 2]
  /\ select Arm.seed (active_variable_indexes_ Arm.plugin) = [1; 2; 3]%float
  /\ active_initial_guess
       <$> search_locals Arm.plugin [Arm.identity_pose] Arm.seed 1%float []
             [] None None Arm.success Arm.options None
     = Some [0; 0; 0]%float
  /\ active_initial_guess
       <$> search_locals Arm.plugin [Arm.identity_pose] Arm.seed 1%float []
             [] None None Arm.success Arm.options None
     <> Some (select Arm.seed (active_variable_indexes_ Arm.plugin)).
Proof.
  split; [reflexivity|]. split; [reflexivity|]. split; [reflexivity|].
  intros Hsame.
  apply (f_equal (fun guess =>
                    match guess with
                    | Some (first :: _) => (0 <? first)%float
                    | _ => false
                    end)) in Hsame.
  vm_compute in Hsame. discriminate Hsame.
Qed.

(** C4 on the arm, whose avoid-joint-limits weight is 0 and whose
    center-joints weight is 2. *)
Lemma builtin_goal_added_iff_weight_positive_arm :
  exists locals : SearchLocals,
    search_locals Arm.plugin [Arm.identity_pose] Arm.seed 1%float [] [] None
      None Arm.success Arm.options None = Some locals
    /\ List.filter (is_builtin avoid_joint_limits) (goals locals) = [].
Proof.
  eexists. split; [reflexivity|].
  exact (proj1 (builtin_goal_added_iff_weight_positive Arm.plugin
                  [Arm.identity_pose] Arm.seed 1%float [] [] None None
                  Arm.success Arm.options None _ avoid_joint_limits eq_refl)).
Defined.

(** C7 on the arm: two poses and a cost function give two goals. *)
Lemma ik_cost_goal_per_pose_arm :
  exists locals : SearchLocals,
    search_locals Arm.plugin [Arm.identity_pose; Arm.identity_pose] Arm.seed
      1%float [] [] None Arm.unit_cost Arm.success Arm.options None
    = Some locals
    /\ List.filter is_ik_cost (goals locals)
       = map (ik_cost_goal Arm.plugin Arm.unit_cost (initial_guess locals))
           [Arm.identity_pose; Arm.identity_pose].
Proof.
  eexists. split; [reflexivity|].
  exact (proj1 (ik_cost_goal_per_pose Arm.plugin
                  [Arm.identity_pose; Arm.identity_pose] Arm.seed 1%float []
                  [] None Arm.unit_cost Arm.success Arm.options None _
                  eq_refl)).
Defined.

(** C8 on the arm: a failed call given the solution vector [9]. *)
Lemma failed_search_leaves_solution_arm :
  searchPositionIK Arm.plugin [Arm.identity_pose] Arm.seed 1%float []
    [9%float] None None Arm.success Arm.options None
  = Some {| returned := false;
            solution_out := [9%float];
            error_code_out := Arm.success |}
  /\ solution_out
       {| returned := false;
          solution_out := [9%float];
          error_code_out := Arm.success |}
     = [9%float].
Proof.
  split; [reflexivity|].
  apply (failed_search_leaves_solution Arm.plugin Arm.identity_pose
           [Arm.identity_pose] Arm.seed 1%float [] [9%float] None None
           Arm.success Arm.options None).
  - left. reflexivity.
  - reflexivity.
Defined.

(** ** More on [initialize] *)

Lemma NoDup_map_filter {A B : Type} (f : A -> B) (p : A -> bool) (l : list A) :
  List.NoDup (map f l) -> List.NoDup (map f (List.filter p l)).
Proof.
  induction l as [|x l IH]; simpl; intros Hnodup; [exact Hnodup|].
  inversion_clear Hnodup as [|? ? Hnotin Hrest].
  destruct (p x); simpl; [|exact (IH Hrest)].
  constructor; [|exact (IH Hrest)].
  intros Hin. apply Hnotin.
  apply in_map_iff in Hin as (y & Hy & Hin). apply in_map_iff.
  exists y. split; [exact Hy|]. apply filter_In in Hin. tauto.
Qed.

Section InitializeMore.
Context `{core : GdIk}.

(** X2.  [joint_names_] is never cleared: initialising twice for the same
    group, from a plugin without joint names, leaves every name of the
    group's named joints twice in the list. *)
Theorem initialize_twice_joint_names (self : GDIKPlugin) (node : Node)
    (robot_model : RobotModel) (group_name base_frame : string)
    (tip_frames : list string) (search_discretization : double)
    (jmg : JointModelGroup) :
  getJointNames self = [] ->
  getJointModelGroup robot_model group_name = Some jmg ->
  getJointNames
    (snd (initialize
            (snd (initialize self node robot_model group_name base_frame
                    tip_frames search_discretization))
            node robot_model group_name base_frame tip_frames
            search_discretization))
  = map getName
      (List.filter (joint_is_named (removeSlash base_frame))
         (getJointModels jmg))
    ++ map getName
         (List.filter (joint_is_named (removeSlash base_frame))
            (getJointModels jmg)).
Proof.
  intros Hfresh Hgroup.
  rewrite (initialize_joint_names _ _ _ _ _ _ _ jmg Hgroup).
  rewrite (initialize_joint_names _ _ _ _ _ _ _ jmg Hgroup).
  rewrite Hfresh. reflexivity.
Qed.

(** X3.  After [initialize] for a group of the model, the link names are
    the end-effector tips of the group when it has any, and otherwise the
    caller's tip frames without their leading slashes; the stored tip
    frames are the same list, and the tip link indexes are those of these
    names. *)
Theorem initialize_link_names (self : GDIKPlugin) (node : Node)
    (robot_model : RobotModel) (group_name base_frame : string)
    (tip_frames : list string) (search_discretization : double)
    (jmg : JointModelGroup) :
  getJointModelGroup robot_model group_name = Some jmg ->
  getLinkNames
    (snd (initialize self node robot_model group_name base_frame tip_frames
            search_discretization))
  = match getEndEffectorTips jmg with
    | [] => map removeSlash tip_frames
    | _ :: _ => getEndEffectorTips jmg
    end
  /\ tip_frames_
       (base (snd (initialize self node robot_model group_name base_frame
                     tip_frames search_discretization)))
     = getLinkNames
         (snd (initialize self node robot_model group_name base_frame
                 tip_frames search_discretization))
  /\ tip_link_indexes_
       (snd (initialize self node robot_model group_name base_frame
               tip_frames search_discretization))
     = get_link_indexes robot_model
         (getLinkNames
            (snd (initialize self node robot_model group_name base_frame
                    tip_frames search_discretization))).
Proof.
  intros Hgroup. unfold initialize. rewrite Hgroup. simpl.
  destruct (getEndEffectorTips jmg); repeat split; reflexivity.
Qed.

(** X4.  With the group in the model, [initialize] assigns every member
    that the class declares at lines 22-32 except [joint_names_], to which
    it appends: from any two plugins it leaves the same node, parameters,
    group, link names, robot, index vectors and factors, and the same joint
    names when the two plugins had the same. *)
Theorem initialize_overwrites (self1 self2 : GDIKPlugin) (node : Node)
    (robot_model : RobotModel) (group_name base_frame : string)
    (tip_frames : list string) (search_discretization : double) :
  is_Some (getJointModelGroup robot_model group_name) ->
  node_
    (snd (initialize self1 node robot_model group_name base_frame tip_frames
            search_discretization))
  = node_
      (snd (initialize self2 node robot_model group_name base_frame
              tip_frames search_discretization))
  /\ parameter_listener_
       (snd (initialize self1 node robot_model group_name base_frame
               tip_frames search_discretization))
     = parameter_listener_
         (snd (initialize self2 node robot_model group_name base_frame
                 tip_frames search_discretization))
  /\ params_
       (snd (initialize self1 node robot_model group_name base_frame
               tip_frames search_discretization))
     = params_
         (snd (initialize self2 node robot_model group_name base_frame
                 tip_frames search_discretization))
  /\ jmg_
       (snd (initialize self1 node robot_model group_name base_frame
               tip_frames search_discretization))
     = jmg_
         (snd (initialize self2 node robot_model group_name base_frame
                 tip_frames search_discretization))
  /\ link_names_
       (snd (initialize self1 node robot_model group_name base_frame
               tip_frames search_discretization))
     = link_names_
         (snd (initialize self2 node robot_model group_name base_frame
                 tip_frames search_discretization))
  /\ robot_
       (snd (initialize self1 node robot_model group_name base_frame
               tip_frames search_discretization))
     = robot_
         (snd (initialize self2 node robot_model group_name base_frame
                 tip_frames search_discretization))
  /\ tip_link_indexes_
       (snd (initialize self1 node robot_model group_name base_frame
               tip_frames search_discretization))
     = tip_link_indexes_
         (snd (initialize self2 node robot_model group_name base_frame
                 tip_frames search_discretization))
  /\ active_variable_indexes_
       (snd (initialize self1 node robot_model group_name base_frame
               tip_frames search_discretization))
     = active_variable_indexes_
         (snd (initialize self2 node robot_model group_name base_frame
                 tip_frames search_discretization))
  /\ minimal_displacement_factors_
       (snd (initialize self1 node robot_model group_name base_frame
               tip_frames search_discretization))
     = minimal_displacement_factors_
         (snd (initialize self2 node robot_model group_name base_frame
                 tip_frames search_discretization))
  /\ (joint_names_ self1 = joint_names_ self2 ->
      joint_names_
        (snd (initialize self1 node robot_model group_name base_frame
                tip_frames search_discretization))
      = joint_names_
          (snd (initialize self2 node robot_model group_name base_frame
                  tip_frames search_discretization))).
Proof.
  intros [jmg Hgroup]. unfold initialize. rewrite Hgroup. simpl.
  repeat split. intros Hnames. rewrite Hnames. reflexivity.
Qed.

(** X5.  After [initialize] for a group of the model, on a plugin without
    joint names: the base frame is not among the joint names, there are at
    most as many joint names as the group has joints, and the joint names
    are without repetition when the names of the group's joints are. *)
Theorem initialize_joint_names_invariants (self : GDIKPlugin) (node : Node)
    (robot_model : RobotModel) (group_name base_frame : string)
    (tip_frames : list string) (search_discretization : double)
    (jmg : JointModelGroup) :
  getJointNames self = [] ->
  getJointModelGroup robot_model group_name = Some jmg ->
  ~ In (getBaseFrame
          (snd (initialize self node robot_model group_name base_frame
                  tip_frames search_discretization)))
       (getJointNames
          (snd (initialize self node robot_model group_name base_frame
                  tip_frames search_discretization)))
  /\ length
       (getJointNames
          (snd (initialize self node robot_model group_name base_frame
                  tip_frames search_discretization)))
     <= length (getJointModels jmg)
  /\ (List.NoDup (map getName (getJointModels jmg)) ->
      List.NoDup
        (getJointNames
           (snd (initialize self node robot_model group_name base_frame
                   tip_frames search_discretization)))).
Proof.
  intros Hfresh Hgroup.
  rewrite initialize_base_frame.
  rewrite (initialize_joint_names _ _ _ _ _ _ _ jmg Hgroup), Hfresh. simpl.
  split; [|split].
  - intros Hin. apply in_map_iff in Hin as (j & Hname & Hin).
    apply filter_In in Hin as [_ Hkeep].
    apply joint_is_named_true in Hkeep. tauto.
  - rewrite length_map. apply List.filter_length_le.
  - apply NoDup_map_filter.
Qed.

(** X6.  A leading slash on the base frame or on the tip frames makes no
    difference to [initialize]. *)
Theorem initialize_leading_slash (self : GDIKPlugin) (node : Node)
    (robot_model : RobotModel) (group_name base_frame : string)
    (tip_frames : list string) (search_discretization : double) :
  initialize self node robot_model group_name (String "/" base_frame)
    (map (String "/") tip_frames) search_discretization
  = initialize self node robot_model group_name base_frame tip_frames
      search_discretization.
Proof.
  unfold initialize, storeValues. simpl. rewrite map_map. simpl.
  reflexivity.
Qed.

End InitializeMore.

(** ** More on the search calls *)

Section SearchMore.
Context `{core : GdIk}.

(** X9.  Every goal of a search call has a weight greater than 0. *)
Theorem goals_weight_positive (self : GDIKPlugin)
    (ik_poses : list Pose) (ik_seed_state : list double) (timeout : double)
    (consistency_limits solution : list double)
    (solution_callback : IKCallbackFn) (cost_function : IKCostFn)
    (error_code : MoveItErrorCodes) (options : KinematicsQueryOptions)
    (context_state : option RobotState) (locals : SearchLocals) (g : Goal) :
  search_locals self ik_poses ik_seed_state timeout consistency_limits
    solution solution_callback cost_function error_code options context_state
  = Some locals ->
  In g (goals locals) ->
  (0 <? weight g)%float = true.
Proof.
  intros Hlocals Hin.
  destruct (search_locals_inv _ _ _ _ _ _ _ _ _ _ _ _ Hlocals)
    as (state & _ & _ & _ & Hgoals & _).
  rewrite Hgoals, create_goals_parts in Hin.
  repeat (apply in_app_or in Hin as [Hin|Hin]).
  - destruct (0 <? center_joints_weight (params_ self))%float eqn:Hpos;
      [|destruct Hin].
    destruct Hin as [<-|[]]. exact Hpos.
  - destruct (0 <? avoid_joint_limits_weight (params_ self))%float eqn:Hpos;
      [|destruct Hin].
    destruct Hin as [<-|[]]. exact Hpos.
  - destruct (0 <? minimal_displacement_weight (params_ self))%float eqn:Hpos;
      [|destruct Hin].
    destruct Hin as [<-|[]]. exact Hpos.
  - destruct cost_function as [f|]; [|destruct Hin].
    apply in_map_iff in Hin as (pose & <- & _). reflexivity.
Qed.

(** X10.  The goals of a search call are in a fixed order: center-joints,
    avoid-joint-limits, minimal-displacement, each present when its weight
    is greater than 0, then the goals of the caller's cost function in the
    order of the poses; so there are at most three more goals than poses,
    and none when no weight is positive and no cost function is given. *)
Theorem goals_in_order (self : GDIKPlugin)
    (ik_poses : list Pose) (ik_seed_state : list double) (timeout : double)
    (consistency_limits solution : list double)
    (solution_callback : IKCallbackFn) (cost_function : IKCostFn)
    (error_code : MoveItErrorCodes) (options : KinematicsQueryOptions)
    (context_state : option RobotState) (locals : SearchLocals) :
  search_locals self ik_poses ik_seed_state timeout consistency_limits
    solution solution_callback cost_function error_code options context_state
  = Some locals ->
  goals locals
  = List.filter (fun g => (0 <? weight g)%float)
      [ builtin_goal self (active_initial_guess locals) center_joints;
        builtin_goal self (active_initial_guess locals) avoid_joint_limits;
        builtin_goal self (active_initial_guess locals) minimal_displacement ]
    ++ match cost_function with
       | Some _ =>
           map (ik_cost_goal self cost_function (initial_guess locals))
             ik_poses
       | None => []
       end
  /\ length (goals locals) <= 3 + length ik_poses
  /\ ((0 <? center_joints_weight (params_ self))%float = false ->
      (0 <? avoid_joint_limits_weight (params_ self))%float = false ->
      (0 <? minimal_displacement_weight (params_ self))%float = false ->
      cost_function = None ->
      goals locals = []).
Proof.
  intros Hlocals.
  destruct (search_locals_inv _ _ _ _ _ _ _ _ _ _ _ _ Hlocals)
    as (state & _ & _ & _ & Hgoals & _).
  assert (Hparts :
    goals locals
    = List.filter (fun g => (0 <? weight g)%float)
        [ builtin_goal self (active_initial_guess locals) center_joints;
          builtin_goal self (active_initial_guess locals) avoid_joint_limits;
          builtin_goal self (active_initial_guess locals)
            minimal_displacement ]
      ++ match cost_function with
         | Some _ =>
             map (ik_cost_goal self cost_function (initial_guess locals))
               ik_poses
         | None => []
         end).
  { rewrite Hgoals at 1. rewrite create_goals_parts. simpl.
    destruct (0 <? center_joints_weight (params_ self))%float,
             (0 <? avoid_joint_limits_weight (params_ self))%float,
             (0 <? minimal_displacement_weight (params_ self))%float;
      reflexivity. }
  split; [exact Hparts|]. split.
  - rewrite Hparts, length_app.
    assert (Hle :
      length
        (List.filter (fun g => (0 <? weight g)%float)
           [ builtin_goal self (active_initial_guess locals) center_joints;
             builtin_goal self (active_initial_guess locals)
               avoid_joint_limits;
             builtin_goal self (active_initial_guess locals)
               minimal_displacement ]) <= 3)
      by apply (List.filter_length_le (fun g => (0 <? weight g)%float)
                  [_; _; _]).
    revert Hle.
    generalize
      (length
         (List.filter (fun g => (0 <? weight g)%float)
            [ builtin_goal self (active_initial_guess locals) center_joints;
              builtin_goal self (active_initial_guess locals)
                avoid_joint_limits;
              builtin_goal self (active_initial_guess locals)
                minimal_displacement ])).
    intros n Hle.
    destruct cost_function; [rewrite length_map|]; simpl; lia.
  - intros Hc Ha Hm ->. rewrite Hparts. simpl.
    rewrite Hc, Ha, Hm. reflexivity.
Qed.

End SearchMore.

(** ** The further properties on the arm *)

(** X1 on the arm, whose model has no group ["leg"]: the joint names of the
    initialised plugin stay. *)
Lemma initialize_group_absent_arm :
  getJointModelGroup Arm.model "leg" = None
  /\ fst (initialize Arm.plugin Arm.node Arm.model "leg" "/base_link"
            ["/tool0"] 0%float) = false
  /\ joint_names_
       (snd (initialize Arm.plugin Arm.node Arm.model "leg" "/base_link"
               ["/tool0"] 0%float))
     = ["shoulder"; "elbow"].
Proof.
  split; [reflexivity|].
  destruct (initialize_group_absent Arm.plugin Arm.node Arm.model "leg"
              "/base_link" ["/tool0"] 0%float eq_refl)
    as (Hfalse & _ & Hnames & _).
  split; [exact Hfalse | exact Hnames].
Defined.

(** X2 on the arm. *)
Lemma initialize_twice_joint_names_arm :
  getJointNames Arm.fresh = []
  /\ getJointModelGroup Arm.model "arm" = Some Arm.group
  /\ getJointNames
       (snd (initialize Arm.plugin Arm.node Arm.model "arm" "/base_link"
               ["/tool0"] 0%float))
     = ["shoulder"; "elbow"; "shoulder"; "elbow"].
Proof.
  split; [reflexivity|]. split; [reflexivity|].
  exact (initialize_twice_joint_names Arm.fresh Arm.node Arm.model "arm"
           "/base_link" ["/tool0"] 0%float Arm.group eq_refl eq_refl).
Defined.

(** X3 on the arm, whose group has no end-effector tips. *)
Lemma initialize_link_names_arm :
  getJointModelGroup Arm.model "arm" = Some Arm.group
  /\ getLinkNames Arm.plugin = ["tool0"].
Proof.
  split; [reflexivity|].
  exact (proj1 (initialize_link_names Arm.fresh Arm.node Arm.model "arm"
                  "/base_link" ["/tool0"] 0%float Arm.group eq_refl)).
Defined.

(** X4 on the arm: initialising the initialised plugin again, with another
    base frame, leaves the link names and the active-variable indexes that
    initialising the fresh plugin leaves. *)
Lemma initialize_overwrites_arm :
  is_Some (getJointModelGroup Arm.model "arm")
  /\ link_names_
       (snd (initialize Arm.plugin Arm.node Arm.model "arm" "/world"
               ["/tool0"] 1%float))
     = ["tool0"]
  /\ active_variable_indexes_
       (snd (initialize Arm.plugin Arm.node Arm.model "arm" "/world"
               ["/tool0"] 1%float))
     = [0; 1; 2].
Proof.
  split; [exists Arm.group; reflexivity|].
  destruct (initialize_overwrites Arm.plugin Arm.fresh Arm.node Arm.model
              "arm" "/world" ["/tool0"] 1%float
              (ex_intro _ Arm.group eq_refl))
    as (_ & _ & _ & _ & Hlinks & _ & _ & Hactive & _).
  split; [exact Hlinks | exact Hactive].
Defined.

(** X5 on the arm, one of whose joints has the name of the base frame. *)
Lemma initialize_joint_names_invariants_arm :
  In "base_link" (map getName (getJointModels Arm.group))
  /\ ~ In "base_link" (getJointNames Arm.plugin).
Proof.
  split; [left; reflexivity|].
  exact (proj1 (initialize_joint_names_invariants Arm.fresh Arm.node
                  Arm.model "arm" "/base_link" ["/tool0"] 0%float Arm.group
                  eq_refl eq_refl)).
Defined.

(** X9 on the arm: the centring goal of weight 2. *)
Lemma goals_weight_positive_arm :
  (0 <? weight (builtin_goal Arm.plugin [0; 0; 0]%float center_joints))%float
  = true.
Proof.
  apply (goals_weight_positive Arm.plugin [Arm.identity_pose] Arm.seed
           1%float [] [] None None Arm.success Arm.options None _ _ eq_refl).
  left. reflexivity.
Defined.

(** X10 on the arm: the centring goal, then one goal for the pose. *)
Lemma goals_in_order_arm :
  exists locals : SearchLocals,
    search_locals Arm.plugin [Arm.identity_pose] Arm.seed 1%float [] [] None
      Arm.unit_cost Arm.success Arm.options None = Some locals
    /\ goals locals
       = [ builtin_goal Arm.plugin [0; 0; 0]%float center_joints;
           ik_cost_goal Arm.plugin Arm.unit_cost [0; 0; 0]%float
             Arm.identity_pose ].
Proof.
  eexists. split; [reflexivity|].
  exact (proj1 (goals_in_order Arm.plugin [Arm.identity_pose] Arm.seed
                  1%float [] [] None Arm.unit_cost Arm.success Arm.options
                  None _ eq_refl)).
Defined.
